(** * SQLEngine: a shallow embedding of [src/sqlengine/sqlengine.py]

    The module builds a connection URL and hands it to SQLAlchemy.  The
    embedding keeps three things the Python code relies on:

    - the class-level [query] dictionaries of [MSSQLEngine] and
      [AccessEngine] are objects in a store, and instances hold references
      to them (no copy is made anywhere in the module);
    - exceptions: an [assert] that fails, or whatever the wrapped library
      raises, ends the call, and mutations done before the raise stay;
    - the wrapped library (SQLAlchemy's [URL.create], [create_engine],
      [Engine.connect], and pathlib's [Path.absolute]) is an interface, not
      part of the module: its operations are the fields of [Library]. *)

From stdpp Require Import gmap strings list fin_maps.

Open Scope string_scope.

(** ** Python values used by the module *)

(** A [dict[str, str]]. *)
Abbreviation dict := (gmap string string).

(** A reference to a dictionary object. *)
Definition loc := positive.

(** What a Python call produces: a value, or a raised exception. *)
Inductive outcome (E A : Type) : Type :=
| Returns (a : A)
| Raises (e : E).
Arguments Returns {E A} a.
Arguments Raises {E A} e.

(** The keyword arguments [URL.create] is called with at line 35-41:
    [drivername], [host], [database], [query], and the caller's
    [**kwargs].  [url_query] is the content of the dictionary at the time
    of the call ([None] when the argument is [None]). *)
Record URLArgs (Value : Type) : Type := mkURLArgs {
  url_drivername : option string;
  url_host : option string;
  url_database : option string;
  url_query : option dict;
  url_kwargs : gmap string Value
}.
Arguments mkURLArgs {Value}.
Arguments url_drivername {Value}.
Arguments url_host {Value}.
Arguments url_database {Value}.
Arguments url_query {Value}.
Arguments url_kwargs {Value}.

(** ** The wrapped library

    [LibState] is everything outside the module that a library call may
    read or change (loaded dialects, pools, the working directory).  Every
    operation may raise. *)
Class Library : Type := {
  LibState : Type;
  LibExn : Type;
  PyValue : Type;
  URL : Type;
  Engine : Type;
  Connection : Type;
  (** [sqlalchemy.URL.create], called with keyword arguments *)
  URL_create : URLArgs PyValue → LibState → outcome LibExn URL * LibState;
  (** [sqlalchemy.create_engine(url=u)] *)
  create_engine : URL → LibState → outcome LibExn Engine * LibState;
  (** [e.connect()] for an [Engine] [e] *)
  Engine_connect : Engine → LibState → outcome LibExn Connection * LibState;
  (** [str(Path(p).absolute())]; the argument is what the caller passed,
      [None] included *)
  Path_absolute_str : option string → LibState → outcome LibExn string * LibState
}.

(** The three classes of the module. *)
Inductive PyClass : Type :=
| SQLEngine_cls
| MSSQLEngine_cls
| AccessEngine_cls.

Section SQLEngine.
Context {L : Library}.

(** ** Exceptions, state and the monad of module code *)

(** [AssertionError msg] is an [assert] of this module that failed;
    [Raised e] is an exception coming out of a library call. *)
Inductive Exn : Type :=
| AssertionError (msg : string)
| Raised (e : LibExn).

(** The dictionaries the program holds, and the library's own state. *)
Record State : Type := mkState {
  heap : gmap loc dict;
  world : LibState
}.

Definition M (A : Type) : Type := State → outcome Exn A * State.

#[global] Instance M_ret : MRet M := λ A a s, (Returns a, s).

#[global] Instance M_bind : MBind M := λ A B f m s,
  match m s with
  | (Returns a, s') => f a s'
  | (Raises e, s') => (Raises e, s')
  end.

#[global] Instance M_fmap : FMap M := λ A B f m s,
  match m s with
  | (Returns a, s') => (Returns (f a), s')
  | (Raises e, s') => (Raises e, s')
  end.

(** [raise e] *)
Definition raise {A : Type} (e : Exn) : M A := λ s, (Raises e, s).

(** [try: body / except Exception as e: handler e] *)
Definition try_except {A : Type} (body : M A) (handler : Exn → M A) : M A :=
  λ s, match body s with
       | (Returns a, s') => (Returns a, s')
       | (Raises e, s') => handler e s'
       end.

(** [assert cond, msg] *)
Definition py_assert (cond : bool) (msg : string) : M unit :=
  λ s, if cond then (Returns tt, s) else (Raises (AssertionError msg), s).

(** A call into the library: it sees and changes [world] only. *)
Definition call {A : Type} (c : LibState → outcome LibExn A * LibState) : M A :=
  λ s, match c (world s) with
       | (Returns a, w) => (Returns a, mkState (heap s) w)
       | (Raises e, w) => (Raises (Raised e), mkState (heap s) w)
       end.

(** The dictionary a reference denotes.  Every reference a Python program
    holds is live; a location nothing was stored at reads as the empty
    dictionary. *)
Definition dict_at (s : State) (l : loc) : dict := heap s !!! l.

(** The content of an optional dictionary argument, read when it is
    passed on to the library. *)
Definition read_query (query : option loc) : M (option dict) :=
  λ s, (Returns (dict_at s <$> query), s).

(** [d[k] = v] on the dictionary object at [l] *)
Definition dict_setitem (l : loc) (k v : string) : M unit :=
  λ s, (Returns tt, mkState (<[l := <[k := v]> (dict_at s l)]> (heap s)) (world s)).

Definition is_not_None {A : Type} (x : option A) : bool :=
  match x with Some _ => true | None => false end.

(** ** Class attributes *)

Definition MSSQLEngine_driver : string := "mssql+pyodbc".
Definition AccessEngine_driver : string := "access+pyodbc".

(** The dictionary objects bound to [MSSQLEngine.query] and
    [AccessEngine.query] when the classes are defined. *)
Definition MSSQLEngine_query : loc := 1%positive.
Definition AccessEngine_query : loc := 2%positive.

Definition MSSQLEngine_presets : dict :=
  {[ "driver" := "SQL Server Native Client 11.0" ]}.

(** The ODBC driver name of line 100; the literal is split so that its
    parenthesis and star stay apart in this file. *)
Definition Access_odbc_driver : string :=
  Eval cbv in "Microsoft Access Driver (" ++ "*.mdb, *.accdb)".

Definition AccessEngine_presets : dict :=
  <["driver" := Access_odbc_driver]> {[ "ExtendedAnsiSql" := "1" ]}.

(** The store right after the module is imported. *)
Definition initial_heap : gmap loc dict :=
  <[MSSQLEngine_query := MSSQLEngine_presets]>
    {[ AccessEngine_query := AccessEngine_presets ]}.

Definition initial_state (w : LibState) : State := mkState initial_heap w.

(** ** Instances *)

(** An object of class [cls].  [query] is a reference: the attribute is
    bound to the dictionary object it was given, not to a copy. *)
Record Instance : Type := mkInstance {
  cls : PyClass;
  driver : option string;
  host : option string;
  database : option string;
  query : option loc;
  url : URL;
  engine : Engine
}.

(** [SQLEngine.__init__], run on a fresh object of class [self_cls]:
    [SQLEngine(...)] itself when [self_cls] is [SQLEngine_cls], the
    [super().__init__(...)] of a subclass otherwise.  [kwargs] are the
    extra keyword arguments. *)
Definition SQLEngine__init__ (self_cls : PyClass)
    (driver host database : option string) (query : option loc)
    (kwargs : gmap string PyValue) : M Instance :=
  q ← read_query query;
  u ← call (URL_create (mkURLArgs driver host database q kwargs));
  e ← call (create_engine u);
  mret (mkInstance self_cls driver host database query u e).

(** [SQLEngine.connect] *)
Definition SQLEngine_connect (self : Instance) : M Connection :=
  call (Engine_connect (engine self)).

(** [MSSQLEngine.__init__], run on a fresh [MSSQLEngine] object:
    [self.driver] and [self.query] resolve to the class attributes, the
    object having none of its own yet. *)
Definition MSSQLEngine__init__ (host database : option string) : M Instance :=
  SQLEngine__init__ MSSQLEngine_cls
    (Some MSSQLEngine_driver) host database (Some MSSQLEngine_query) ∅.

(** [AccessEngine.__init__], run on a fresh [AccessEngine] object: line
    105 stores into the dictionary that [self.query] resolves to, which is
    the class attribute. *)
Definition AccessEngine__init__ (db_path : option string) : M Instance :=
  a ← call (Path_absolute_str db_path);
  dict_setitem AccessEngine_query "DBQ" a;;
  SQLEngine__init__ AccessEngine_cls
    (Some AccessEngine_driver) None None (Some AccessEngine_query) ∅.

(** [build_engine(driver, host, database, query, local_db_filepath)] *)
Definition build_engine (driver host database : option string)
    (query : option loc) (local_db_filepath : option string) : M Engine :=
  py_assert (is_not_None driver || is_not_None local_db_filepath)
    "Specify a driver or local database file path.";;
  if decide (driver = Some "mssql") then
    engine <$> MSSQLEngine__init__ host database
  else if decide (driver = Some "access") then
    py_assert (is_not_None local_db_filepath)
      "Using Access you must specify a local database file path.";;
    engine <$> AccessEngine__init__ local_db_filepath
  else
    try_except
      (engine <$> SQLEngine__init__ SQLEngine_cls driver host database query ∅)
      (λ e, raise e).

(** The state just after line 105 stored the absolutised path [a], the
    library having moved to [w]. *)
Definition with_DBQ (a : string) (s : State) (w : LibState) : State :=
  mkState
    (<[AccessEngine_query := <["DBQ" := a]> (dict_at s AccessEngine_query)]>
       (heap s)) w.

(** ** Delegation as the specification words it

    "Assembling a connection URL and delegating to the toolkit for engine
    creation": [create_engine(url=URL.create(...))] and nothing else. *)
Definition delegate (args : URLArgs PyValue) : M Engine :=
  u ← call (URL_create args); call (create_engine u).

(** Instance [i] carries the URL the library made from [args] in world
    [w], and the engine the library made from that URL, leaving [w']. *)
Definition url_assembled (args : URLArgs PyValue) (w : LibState)
    (i : Instance) (w' : LibState) : Prop :=
  ∃ w1, URL_create args w = (Returns (url i), w1) ∧
        create_engine (url i) w1 = (Returns (engine i), w').

(** ** The selection logic as the specification words it

    "driver name → subclass → preset query parameters": the class a driver
    name selects, and the constructor call made for that class. *)
Definition select_class (driver : string) : PyClass :=
  if String.eqb driver "mssql" then MSSQLEngine_cls
  else if String.eqb driver "access" then AccessEngine_cls
  else SQLEngine_cls.

Definition instantiate (c : PyClass) (driver host database : option string)
    (query : option loc) (local_db_filepath : option string) : M Instance :=
  match c with
  | MSSQLEngine_cls => MSSQLEngine__init__ host database
  | AccessEngine_cls =>
      py_assert (is_not_None local_db_filepath)
        "Using Access you must specify a local database file path.";;
      AccessEngine__init__ local_db_filepath
  | SQLEngine_cls => SQLEngine__init__ SQLEngine_cls driver host database query ∅
  end.

(** "Runtime behaviour belongs entirely to the wrapped library": what
    connecting through the library alone does to a state. *)
Definition wrapped_connect (e : Engine) : M Connection :=
  λ s, match Engine_connect e (world s) with
       | (Returns c, w) => (Returns c, mkState (heap s) w)
       | (Raises x, w) => (Raises (Raised x), mkState (heap s) w)
       end.

(** ** Histories of calls into the module *)

Inductive Call : Type :=
| Call_SQLEngine (driver host database : option string) (query : option loc)
    (kwargs : gmap string PyValue)
| Call_MSSQLEngine (host database : option string)
| Call_AccessEngine (db_path : option string)
| Call_build_engine (driver host database : option string)
    (query : option loc) (local_db_filepath : option string)
| Call_connect (self : Instance).

(** The state a call leaves behind, whether it returned or raised. *)
Definition exec (c : Call) (s : State) : State :=
  match c with
  | Call_SQLEngine d h db q kw => (SQLEngine__init__ SQLEngine_cls d h db q kw s).2
  | Call_MSSQLEngine h db => (MSSQLEngine__init__ h db s).2
  | Call_AccessEngine p => (AccessEngine__init__ p s).2
  | Call_build_engine d h db q p => (build_engine d h db q p s).2
  | Call_connect i => (SQLEngine_connect i s).2
  end.

Fixpoint run (cs : list Call) (s : State) : State :=
  match cs with
  | [] => s
  | c :: cs' => run cs' (exec c s)
  end.

(** Calls that reach line 105 (an [AccessEngine] is being constructed). *)
Definition constructs_Access (c : Call) : bool :=
  match c with
  | Call_AccessEngine _ => true
  | Call_build_engine d _ _ _ p =>
      bool_decide (d = Some "access") && is_not_None p
  | _ => false
  end.

(** The class dictionaries hold what the class bodies bound, apart from
    the ["DBQ"] entry that line 105 adds to [AccessEngine.query]. *)
Definition class_dicts_ok (s : State) : Prop :=
  dict_at s MSSQLEngine_query = MSSQLEngine_presets ∧
  delete "DBQ" (dict_at s AccessEngine_query) = AccessEngine_presets.

(** States a program gets to: it starts from the imported module, calls
    into it, and in between may change the world and dictionaries of its
    own. *)
Inductive reachable : State → Prop :=
| reachable_initial w : reachable (initial_state w)
| reachable_call c s : reachable s → reachable (exec c s)
| reachable_client s hp w :
    reachable s →
    hp !!! MSSQLEngine_query = dict_at s MSSQLEngine_query →
    hp !!! AccessEngine_query = dict_at s AccessEngine_query →
    reachable (mkState hp w).

End SQLEngine.

(** ** A library to run the model on

    URLs, engines and connections are the arguments they were made from,
    the library state is the working directory, and [URL.create] rejects a
    missing driver name. *)
Module Plain.

Definition absolute (cwd p : string) : string :=
  if String.prefix "/" p then p else cwd ++ "/" ++ p.

Definition lib : Library := {|
  LibState := string;
  LibExn := string;
  PyValue := string;
  URL := URLArgs string;
  Engine := URLArgs string;
  Connection := URLArgs string;
  URL_create := λ a w,
    match url_drivername a with
    | Some _ => (Returns a, w)
    | None => (Raises "TypeError", w)
    end;
  create_engine := λ u w, (Returns u, w);
  Engine_connect := λ e w, (Returns e, w);
  Path_absolute_str := λ p w,
    match p with
    | Some p => (Returns (absolute w p), w)
    | None => (Raises "TypeError", w)
    end
|}.

(** The freshly imported module, run from [/srv]. *)
Definition start : State (L := lib) := initial_state (L := lib) "/srv".

(** A caller's own dictionary, at location 3. *)
Definition caller_query : loc := 3%positive.

Definition start_with (d : dict) : State (L := lib) :=
  mkState (L := lib) (<[caller_query := d]> initial_heap) "/srv".

(** What [SQLEngine("sqlite", None, "app.db", query)] is expected to
    build when the caller's dictionary is [{"timeout": "5"}]. *)
Definition sqlite_url : URLArgs string :=
  mkURLArgs (Some "sqlite") None (Some "app.db")
    (Some {[ "timeout" := "5" ]}) ∅.

Definition sqlite_instance : Instance (L := lib) :=
  mkInstance (L := lib) SQLEngine_cls (Some "sqlite") None (Some "app.db")
    (Some caller_query) sqlite_url sqlite_url.

(** What [AccessEngine("db.accdb")] is expected to build and leave. *)
Definition access_url : URLArgs string :=
  mkURLArgs (Some "access+pyodbc") None None
    (Some (<["DBQ" := "/srv/db.accdb"]> AccessEngine_presets)) ∅.

Definition access_instance : Instance (L := lib) :=
  mkInstance (L := lib) AccessEngine_cls (Some "access+pyodbc") None None
    (Some AccessEngine_query) access_url access_url.

Definition after_access : State (L := lib) :=
  with_DBQ (L := lib) "/srv/db.accdb" start "/srv".

End Plain.

(** ** The script [tests/basic_connection_test.py]

    The script talks to a console: [input] writes its prompt and takes the
    next line typed, [print] writes a line.  Besides the module it uses
    three things of the library: the [url] attribute of an engine, and the
    text [print] makes of a URL and of a connection. *)
Class Printing {L : Library} : Type := {
  (** [e.url] for an [Engine] [e] *)
  Engine_url : Engine → URL;
  (** [str(u)] for a [URL] [u] *)
  URL_str : URL → string;
  (** [str(c)] for a [Connection] [c] *)
  Connection_str : Connection → string
}.

(** What was written to the console: a prompt of [input], or a line of
    [print]. *)
Inductive Output : Type :=
| Prompt (text : string)
| Printed (text : string).

(** The lines still to be typed, and what was written so far. *)
Record Console : Type := mkConsole {
  stdin : list string;
  stdout : list Output
}.

Section Script.
Context {L : Library} {P : Printing}.

(** What ends the script early: [input] at the end of the input, or an
    exception of the module or the library that nothing catches. *)
Inductive ScriptExn : Type :=
| EOFError
| Uncaught (e : Exn).

Definition Script (A : Type) : Type :=
  Console → State → outcome ScriptExn A * Console * State.

#[global] Instance Script_ret : MRet Script := λ A a c s, (Returns a, c, s).

#[global] Instance Script_bind : MBind Script := λ A B f m c s,
  match m c s with
  | (Returns a, c', s') => f a c' s'
  | (Raises e, c', s') => (Raises e, c', s')
  end.

(** [input(prompt)] *)
Definition py_input (prompt : string) : Script string :=
  λ c s,
    match stdin c with
    | line :: rest =>
        (Returns line, mkConsole rest (stdout c ++ [Prompt prompt]), s)
    | [] => (Raises EOFError, mkConsole [] (stdout c ++ [Prompt prompt]), s)
    end.

(** [print(text)] *)
Definition py_print (text : string) : Script unit :=
  λ c s, (Returns tt, mkConsole (stdin c) (stdout c ++ [Printed text]), s).

(** Module code run by the script; what it raises is not caught. *)
Definition module_call {A : Type} (m : M A) : Script A :=
  λ c s,
    match m s with
    | (Returns a, s') => (Returns a, c, s')
    | (Raises e, s') => (Raises (Uncaught e), c, s')
    end.

(** Lines 4-22 of the script.  Arguments the script leaves out take
    their default, [None]; line 22 connects through the library's engine
    directly. *)
Definition basic_connection_test : Script unit :=
  driver ← py_input "Enter the driver: ";
  host ← py_input "Enter the host: ";
  database ← py_input "Enter the database: ";
  engine ←
    (if (String.length host =? 0)%nat || bool_decide (driver = "access") then
       db_path ← py_input "Enter the path to the database: ";
       module_call (build_engine (Some driver) None None None (Some db_path))
     else
       module_call
         (build_engine (Some driver) (Some host) (Some database) None None));
  py_print (URL_str (Engine_url engine));;
  conn ← module_call (call (Engine_connect engine));
  py_print (Connection_str conn).

(** Lines 21-22, given the engine. *)
Definition report (engine : Engine) : Script unit :=
  py_print (URL_str (Engine_url engine));;
  conn ← module_call (call (Engine_connect engine));
  py_print (Connection_str conn).

End Script.

(** ** A library without the dialects

    As [Plain.lib], but [create_engine] finds no dialect for any URL and
    raises. *)
Module Offline.

Definition lib : Library := {|
  LibState := string;
  LibExn := string;
  PyValue := string;
  URL := URLArgs string;
  Engine := URLArgs string;
  Connection := URLArgs string;
  URL_create := λ a w,
    match url_drivername a with
    | Some _ => (Returns a, w)
    | None => (Raises "TypeError", w)
    end;
  create_engine := λ u w, (Raises "NoSuchModuleError", w);
  Engine_connect := λ e w, (Returns e, w);
  Path_absolute_str := λ p w,
    match p with
    | Some p => (Returns (Plain.absolute w p), w)
    | None => (Raises "TypeError", w)
    end
|}.

Definition start : State (L := lib) := initial_state (L := lib) "/srv".

End Offline.

(** ** Printing for the plain library *)
Module PlainConsole.

Definition show (u : URLArgs string) : string :=
  default "" (url_drivername u) ++ "://" ++ default "" (url_host u)
    ++ "/" ++ default "" (url_database u).

Definition printing : Printing (L := Plain.lib) :=
  Build_Printing Plain.lib
    (λ e : URLArgs string, e)
    show
    (λ c : URLArgs string, "Connection(" ++ show c ++ ")").

Definition typed (lines : list string) : Console := mkConsole lines [].

End PlainConsole.

(** ** More runs on the plain library *)
Module PlainRuns.

(** What a second [AccessEngine("other.mdb")] is expected to build and
    leave, after [Plain.after_access]. *)
Definition second_url : URLArgs string :=
  mkURLArgs (Some "access+pyodbc") None None
    (Some (<["DBQ" := "/srv/other.mdb"]> AccessEngine_presets)) ∅.

Definition second_instance : Instance (L := Plain.lib) :=
  mkInstance (L := Plain.lib) AccessEngine_cls (Some "access+pyodbc") None None
    (Some AccessEngine_query) second_url second_url.

Definition after_second : State (L := Plain.lib) :=
  with_DBQ (L := Plain.lib) "/srv/other.mdb" Plain.after_access "/srv".

(** The module after a client stored an entry of its own through
    [MSSQLEngine(...).query]. *)
Definition client_entry : State (L := Plain.lib) :=
  mkState (L := Plain.lib)
    (<[MSSQLEngine_query :=
         <["Trusted_Connection" := "yes"]> MSSQLEngine_presets]> initial_heap)
    "/srv".

(** A history that constructs two [AccessEngine]s, one of them through
    [build_engine], and an [MSSQLEngine]. *)
Definition history : list (Call (L := Plain.lib)) :=
  [ Call_AccessEngine (L := Plain.lib) (Some "db.accdb");
    Call_build_engine (L := Plain.lib) (Some "access") None None None
      (Some "other.mdb");
    Call_MSSQLEngine (L := Plain.lib) (Some "dbhost") (Some "sales") ].

End PlainRuns.

(** ** Calls that get as far as the store of line 105 *)

Section Stores.
Context {L : Library}.

(** [AccessEngine.__init__] stores ["DBQ"] as soon as its path is
    absolutised: whether [str(Path(p).absolute())] returns in the world
    of [s]. *)
Definition absolutises (p : option string) (s : State) : bool :=
  match Path_absolute_str p (world s) with
  | (Returns _, _) => true
  | (Raises _, _) => false
  end.

(** Call [c], made in state [s], runs line 105 to its end; it may still
    raise after that and hand out no object. *)
Definition stores_DBQ (c : Call) (s : State) : bool :=
  match c with
  | Call_AccessEngine p => absolutises p s
  | Call_build_engine d _ _ _ p =>
      bool_decide (d = Some "access") && is_not_None p && absolutises p s
  | _ => false
  end.

(** Some call of the history, made in the state the calls before it left,
    runs line 105 to its end. *)
Fixpoint some_store (cs : list Call) (s : State) : bool :=
  match cs with
  | [] => false
  | c :: cs' => stores_DBQ c s || some_store cs' (exec c s)
  end.

End Stores.

(** * Properties *)

(** ** Running module code step by step *)

Ltac unfold_M :=
  unfold call, read_query, dict_setitem, py_assert, raise, try_except,
    wrapped_connect in *;
  unfold mbind, M_bind, mret, M_ret, fmap, M_fmap in *.

(** Splits on the outcome of the next library call in the goal. *)
Ltac step_call :=
  match goal with
  | |- context [URL_create ?a ?w] =>
      let r := fresh "u" in let w1 := fresh "w" in
      destruct (URL_create a w) as [[r | r] w1] eqn:?
  | |- context [create_engine ?u ?w] =>
      let r := fresh "e" in let w1 := fresh "w" in
      destruct (create_engine u w) as [[r | r] w1] eqn:?
  | |- context [Path_absolute_str ?p ?w] =>
      let r := fresh "a" in let w1 := fresh "w" in
      destruct (Path_absolute_str p w) as [[r | r] w1] eqn:?
  | |- context [Engine_connect ?e ?w] =>
      let r := fresh "c" in let w1 := fresh "w" in
      destruct (Engine_connect e w) as [[r | r] w1] eqn:?
  end; simpl in *.

Section Properties.
Context {L : Library}.

Implicit Types (s : State) (h db d p : option string) (q : option loc).
Implicit Types (i : Instance) (c : PyClass) (kw : gmap string PyValue).

(** Re-raising what was caught changes nothing. *)
Lemma try_except_reraise {A : Type} (m : M A) s :
  try_except m (λ e, raise e) s = m s.
Proof. unfold try_except, raise. by destruct (m s) as [[a | e] s']. Qed.

(** [SQLEngine.__init__] is two library calls in a row. *)
Lemma SQLEngine__init___unfold c d h db q kw s :
  SQLEngine__init__ c d h db q kw s =
  match URL_create (mkURLArgs d h db (dict_at s <$> q) kw) (world s) with
  | (Returns u, w1) =>
      match create_engine u w1 with
      | (Returns e, w2) =>
          (Returns (mkInstance c d h db q u e), mkState (heap s) w2)
      | (Raises x, w2) => (Raises (Raised x), mkState (heap s) w2)
      end
  | (Raises x, w1) => (Raises (Raised x), mkState (heap s) w1)
  end.
Proof.
  unfold SQLEngine__init__. unfold_M. simpl.
  step_call; [step_call |]; reflexivity.
Qed.

Lemma AccessEngine__init___unfold p s :
  AccessEngine__init__ p s =
  match Path_absolute_str p (world s) with
  | (Returns a, w1) =>
      SQLEngine__init__ AccessEngine_cls (Some AccessEngine_driver) None None
        (Some AccessEngine_query) ∅ (with_DBQ a s w1)
  | (Raises x, w1) => (Raises (Raised x), mkState (heap s) w1)
  end.
Proof.
  unfold AccessEngine__init__. unfold_M. simpl. step_call; reflexivity.
Qed.

Lemma delegate_unfold args s :
  delegate args s =
  match URL_create args (world s) with
  | (Returns u, w1) =>
      match create_engine u w1 with
      | (Returns e, w2) => (Returns e, mkState (heap s) w2)
      | (Raises x, w2) => (Raises (Raised x), mkState (heap s) w2)
      end
  | (Raises x, w1) => (Raises (Raised x), mkState (heap s) w1)
  end.
Proof. unfold delegate. unfold_M. simpl. step_call; [step_call |]; done. Qed.

(** [build_engine], branch by branch. *)
Lemma build_engine_unfold d h db q p s :
  build_engine d h db q p s =
  if is_not_None d || is_not_None p then
    if decide (d = Some "mssql") then (engine <$> MSSQLEngine__init__ h db) s
    else if decide (d = Some "access") then
      if is_not_None p then (engine <$> AccessEngine__init__ p) s
      else (Raises (AssertionError
              "Using Access you must specify a local database file path."), s)
    else (engine <$> SQLEngine__init__ SQLEngine_cls d h db q ∅) s
  else (Raises (AssertionError
          "Specify a driver or local database file path."), s).
Proof.
  unfold build_engine, mbind, M_bind, py_assert.
  destruct (is_not_None d || is_not_None p); [| done].
  destruct (decide (d = Some "mssql")); [done |].
  destruct (decide (d = Some "access")).
  - by destruct (is_not_None p).
  - apply try_except_reraise.
Qed.

(** *** What comes back from a constructor *)

Lemma SQLEngine__init___Returns c d h db q kw s i s' :
  SQLEngine__init__ c d h db q kw s = (Returns i, s') ↔
  cls i = c ∧ driver i = d ∧ host i = h ∧ database i = db ∧ query i = q ∧
  heap s' = heap s ∧
  url_assembled (mkURLArgs d h db (dict_at s <$> q) kw) (world s) i (world s').
Proof.
  rewrite SQLEngine__init___unfold. unfold url_assembled. split.
  - step_call; [step_call |]; intros [= <- <-]; simpl; eauto 10.
  - destruct i as [c0 d0 h0 db0 q0 u e], s' as [hp w']. simpl.
    intros (-> & -> & -> & -> & -> & -> & w1 & -> & ->). done.
Qed.

Lemma AccessEngine__init___Returns p s i s' :
  AccessEngine__init__ p s = (Returns i, s') ↔
  ∃ a w1, Path_absolute_str p (world s) = (Returns a, w1) ∧
          SQLEngine__init__ AccessEngine_cls (Some AccessEngine_driver)
            None None (Some AccessEngine_query) ∅ (with_DBQ a s w1)
          = (Returns i, s').
Proof.
  rewrite AccessEngine__init___unfold.
  destruct (Path_absolute_str p (world s)) as [[a | x] w1]; split.
  - eauto.
  - by intros (a' & w' & [= <- <-] & H).
  - done.
  - by intros (a' & w' & [=] & _).
Qed.

Lemma fmap_engine_Returns (m : M Instance) s e s' :
  (engine <$> m) s = (Returns e, s') ↔
  ∃ i, m s = (Returns i, s') ∧ engine i = e.
Proof.
  unfold fmap, M_fmap. destruct (m s) as [[i | x] s1]; split.
  - intros [= <- <-]. eauto.
  - by intros (j & [= <- <-] & <-).
  - done.
  - by intros (j & [=] & _).
Qed.

Lemma fmap_engine_Raises (m : M Instance) s x s' :
  (engine <$> m) s = (Raises x, s') ↔ m s = (Raises x, s').
Proof.
  unfold fmap, M_fmap.
  destruct (m s) as [[i | y] s1]; split; try done; by intros [= <- <-].
Qed.

(** The constructors raise nothing but what the library raises. *)
Lemma SQLEngine__init___not_assert c d h db q kw s msg s' :
  SQLEngine__init__ c d h db q kw s ≠ (Raises (AssertionError msg), s').
Proof.
  rewrite SQLEngine__init___unfold. step_call; [step_call |]; done.
Qed.

Lemma AccessEngine__init___not_assert p s msg s' :
  AccessEngine__init__ p s ≠ (Raises (AssertionError msg), s').
Proof.
  rewrite AccessEngine__init___unfold. step_call; [| done].
  apply SQLEngine__init___not_assert.
Qed.

(** *** What happens to the dictionaries *)

(** A dictionary read depends on the heap only. *)
Lemma dict_at_heap s1 s2 l : heap s1 = heap s2 → dict_at s1 l = dict_at s2 l.
Proof. unfold dict_at. by intros ->. Qed.

Lemma dict_at_with_DBQ a s w :
  dict_at (with_DBQ a s w) AccessEngine_query =
  <["DBQ" := a]> (dict_at s AccessEngine_query).
Proof. unfold with_DBQ, dict_at. simpl. by rewrite lookup_total_insert_eq. Qed.

Lemma dict_at_with_DBQ_ne a s w l :
  l ≠ AccessEngine_query → dict_at (with_DBQ a s w) l = dict_at s l.
Proof.
  intros Hl. unfold with_DBQ, dict_at. simpl.
  by rewrite lookup_total_insert_ne.
Qed.

(** The base constructor stores into no dictionary. *)
Lemma SQLEngine__init___heap c d h db q kw s :
  heap (SQLEngine__init__ c d h db q kw s).2 = heap s.
Proof.
  rewrite SQLEngine__init___unfold.
  step_call; [step_call |]; reflexivity.
Qed.

Lemma AccessEngine__init___heap p s :
  heap (AccessEngine__init__ p s).2 = heap s ∨
  ∃ a w, heap (AccessEngine__init__ p s).2 = heap (with_DBQ a s w).
Proof.
  rewrite AccessEngine__init___unfold. step_call; [right | by left].
  exists a, w. by rewrite SQLEngine__init___heap.
Qed.

Lemma fmap_engine_heap (m : M Instance) s :
  heap ((engine <$> m) s).2 = heap (m s).2.
Proof. unfold fmap, M_fmap. by destruct (m s) as [[i | x] s1]. Qed.

(** Only the construction of an [AccessEngine] stores anything. *)
Lemma exec_heap_other (c : Call) s :
  constructs_Access c = false → heap (exec c s) = heap s.
Proof.
  destruct c as [d h db q kw | h db | p | d h db q p | i]; simpl; intros Hc.
  - apply SQLEngine__init___heap.
  - apply SQLEngine__init___heap.
  - done.
  - rewrite build_engine_unfold.
    destruct (is_not_None d || is_not_None p); [| done].
    destruct (decide (d = Some "mssql")).
    { rewrite fmap_engine_heap. apply SQLEngine__init___heap. }
    destruct (decide (d = Some "access")) as [-> |].
    { rewrite bool_decide_eq_true_2 in Hc by done. simpl in Hc. by rewrite Hc. }
    rewrite fmap_engine_heap. apply SQLEngine__init___heap.
  - unfold SQLEngine_connect. unfold_M. by step_call.
Qed.

Lemma exec_heap (c : Call) s :
  heap (exec c s) = heap s ∨ ∃ a w, heap (exec c s) = heap (with_DBQ a s w).
Proof.
  destruct (constructs_Access c) eqn:Hc; [| left; by apply exec_heap_other].
  destruct c as [d h db q kw | h db | p | d h db q p | i]; try done; simpl.
  - apply AccessEngine__init___heap.
  - simpl in Hc. apply andb_prop in Hc as [Hd Hp].
    apply bool_decide_eq_true_1 in Hd as ->.
    rewrite build_engine_unfold, Hp, orb_true_r. simpl.
    rewrite fmap_engine_heap. apply AccessEngine__init___heap.
Qed.

Lemma run_heap_other (cs : list Call) s :
  forallb (λ x, negb (constructs_Access x)) cs = true →
  heap (run cs s) = heap s.
Proof.
  revert s. induction cs as [| c cs IH]; intros s Hcs; simpl in *; [done |].
  apply andb_prop in Hcs as [Hc Hcs].
  rewrite IH by done. apply exec_heap_other. by destruct (constructs_Access c).
Qed.

(** ** The class dictionaries along a program *)

Lemma AccessEngine_presets_no_DBQ : AccessEngine_presets !! "DBQ" = None.
Proof. reflexivity. Qed.

Lemma initial_state_ok w : class_dicts_ok (initial_state w).
Proof.
  split; unfold dict_at, initial_state, initial_heap; simpl.
  - by rewrite lookup_total_insert_eq.
  - rewrite lookup_total_insert_ne by done.
    rewrite lookup_total_singleton_eq.
    apply delete_id, AccessEngine_presets_no_DBQ.
Qed.

Lemma class_dicts_ok_heap s1 s2 :
  heap s1 = heap s2 → class_dicts_ok s1 → class_dicts_ok s2.
Proof.
  intros Hh [H1 H2]. unfold class_dicts_ok.
  by rewrite <- !(dict_at_heap s1 s2) by done.
Qed.

Lemma with_DBQ_ok a s w : class_dicts_ok s → class_dicts_ok (with_DBQ a s w).
Proof.
  intros [H1 H2]. split.
  - by rewrite dict_at_with_DBQ_ne.
  - by rewrite dict_at_with_DBQ, delete_insert_eq.
Qed.

(** Under the invariant, line 105 leaves exactly the presets and [DBQ]. *)
Lemma with_DBQ_content a s w :
  class_dicts_ok s →
  dict_at (with_DBQ a s w) AccessEngine_query =
  <["DBQ" := a]> AccessEngine_presets.
Proof.
  intros [_ H2]. by rewrite dict_at_with_DBQ, <- H2, insert_delete_eq.
Qed.

Lemma exec_ok (c : Call) s : class_dicts_ok s → class_dicts_ok (exec c s).
Proof.
  intros Hok. destruct (exec_heap c s) as [Hh | (a & w & Hh)].
  - by apply (class_dicts_ok_heap s).
  - apply (class_dicts_ok_heap (with_DBQ a s w)); [done |].
    by apply with_DBQ_ok.
Qed.

Lemma run_ok (cs : list Call) s : class_dicts_ok s → class_dicts_ok (run cs s).
Proof.
  revert s. induction cs as [| c cs IH]; intros s Hok; simpl; [done |].
  by apply IH, exec_ok.
Qed.

(** Every state a program gets to satisfies the invariant. *)
Lemma reachable_ok s : reachable s → class_dicts_ok s.
Proof.
  induction 1 as [w | c s _ IH | s hp w _ [IH1 IH2] Hm Ha].
  - apply initial_state_ok.
  - by apply exec_ok.
  - split; unfold dict_at; simpl; [by rewrite Hm | by rewrite Ha].
Qed.

Lemma MSSQLEngine_presets_entries k v :
  MSSQLEngine_presets !! k = Some v →
  k = "driver" ∧ v = "SQL Server Native Client 11.0".
Proof.
  unfold MSSQLEngine_presets. by intros [-> ->]%lookup_singleton_Some.
Qed.

Lemma AccessEngine_query_entries a k v :
  <["DBQ" := a]> AccessEngine_presets !! k = Some v →
  (k = "driver" ∧ v = Access_odbc_driver) ∨
  (k = "ExtendedAnsiSql" ∧ v = "1") ∨
  (k = "DBQ" ∧ v = a).
Proof.
  unfold AccessEngine_presets.
  intros [[<- <-] | [_ [[<- <-] | [_ [<- <-]%lookup_singleton_Some]]
    %lookup_insert_Some]]%lookup_insert_Some; auto.
Qed.

(** *** The engine a constructor hands out is plain delegation *)

Lemma fmap_engine_init c d h db q kw s :
  (engine <$> SQLEngine__init__ c d h db q kw) s =
  delegate (mkURLArgs d h db (dict_at s <$> q) kw) s.
Proof.
  rewrite delegate_unfold. unfold fmap at 1, M_fmap.
  rewrite SQLEngine__init___unfold. step_call; [step_call |]; done.
Qed.

Lemma fmap_engine_MSSQL h db s :
  class_dicts_ok s →
  (engine <$> MSSQLEngine__init__ h db) s =
  delegate
    (mkURLArgs (Some MSSQLEngine_driver) h db (Some MSSQLEngine_presets) ∅) s.
Proof.
  intros [Hm _]. unfold MSSQLEngine__init__.
  rewrite fmap_engine_init. simpl. by rewrite Hm.
Qed.

Lemma fmap_engine_Access p s :
  class_dicts_ok s →
  (engine <$> AccessEngine__init__ p) s =
  (a ← call (Path_absolute_str p);
   dict_setitem AccessEngine_query "DBQ" a;;
   delegate
     (mkURLArgs (Some AccessEngine_driver) None None
        (Some (<["DBQ" := a]> AccessEngine_presets)) ∅)) s.
Proof.
  intros Hok. unfold fmap at 1, M_fmap. rewrite AccessEngine__init___unfold.
  unfold mbind, M_bind, call at 1, dict_setitem.
  step_call; [| done].
  fold (with_DBQ a s w).
  pose proof (fmap_engine_init AccessEngine_cls (Some AccessEngine_driver)
                None None (Some AccessEngine_query) ∅ (with_DBQ a s w)) as E.
  unfold fmap at 1, M_fmap in E. rewrite E. simpl.
  by rewrite with_DBQ_content.
Qed.

(** ** The base constructor *)

(** C3. Constructing a [SQLEngine] from [driver], [host], [database] and
    [query] succeeds exactly when the library makes a URL from these four
    components (and the extra keyword arguments) and an engine from that
    URL; the object then has the four arguments as its attributes
    [driver], [host], [database] and [query], that URL as [url] and that
    engine as [engine], and no dictionary has changed. *)
Theorem SQLEngine_components c d h db q kw s i s' :
  SQLEngine__init__ c d h db q kw s = (Returns i, s') ↔
  (driver i = d ∧ host i = h ∧ database i = db ∧ query i = q) ∧
  (∃ w1,
     URL_create
       {| url_drivername := d; url_host := h; url_database := db;
          url_query := dict_at s <$> q; url_kwargs := kw |} (world s)
     = (Returns (url i), w1) ∧
     create_engine (url i) w1 = (Returns (engine i), world s')) ∧
  cls i = c ∧ heap s' = heap s.
Proof.
  rewrite SQLEngine__init___Returns. unfold url_assembled. tauto.
Qed.

(** ** The three branches of [build_engine] *)

(** C1. In a state where [MSSQLEngine.query] holds its preset, calling
    [build_engine] with driver ["mssql"] is, for every host and database
    (and whatever the other arguments are), exactly [create_engine] on the
    URL made from drivername ["mssql+pyodbc"], the given host and
    database and the query [{"driver": "SQL Server Native Client 11.0"}];
    when it returns, the engine is that of an [MSSQLEngine] instance
    carrying this URL. *)
Theorem build_engine_mssql h db q p s :
  class_dicts_ok s →
  let args :=
    {| url_drivername := Some "mssql+pyodbc"; url_host := h;
       url_database := db;
       url_query := Some {[ "driver" := "SQL Server Native Client 11.0" ]};
       url_kwargs := ∅ |} in
  build_engine (Some "mssql") h db q p s = delegate args s ∧
  ∀ e s', build_engine (Some "mssql") h db q p s = (Returns e, s') →
    ∃ i, MSSQLEngine__init__ h db s = (Returns i, s') ∧
         cls i = MSSQLEngine_cls ∧ engine i = e ∧
         url_assembled args (world s) i (world s') ∧
         dict_at s' MSSQLEngine_query = MSSQLEngine_presets.
Proof.
  intros Hok args. rewrite build_engine_unfold. simpl.
  split; [by apply fmap_engine_MSSQL |].
  intros e s' (i & Hi & He)%fmap_engine_Returns.
  exists i. split; [done |].
  apply SQLEngine__init___Returns in Hi as (Hc & _ & _ & _ & _ & Hh & Hu).
  destruct Hok as [Hm _]. simpl in Hu. rewrite Hm in Hu.
  repeat split; try done.
  by rewrite (dict_at_heap s' s).
Qed.

(** C2. In a state where [AccessEngine.query] holds its presets, calling
    [build_engine] with driver ["access"] and a file path [p] absolutises
    [p], stores the result under ["DBQ"] in [AccessEngine.query], and is
    then exactly [create_engine] on the URL made from drivername
    ["access+pyodbc"], no host, no database, and the query holding the two
    presets of lines 100-101, written out below, and that ["DBQ"]; when it
    returns, the engine is that of an [AccessEngine] instance carrying
    this URL. *)
Theorem build_engine_access h db q (path : string) s :
  class_dicts_ok s →
  let query_with a : dict :=
    <["DBQ" := a]>
      (<["driver" := "Microsoft Access Driver (*.mdb, *.accdb)"]>
         {[ "ExtendedAnsiSql" := "1" ]}) in
  let args a :=
    {| url_drivername := Some "access+pyodbc"; url_host := None;
       url_database := None;
       url_query := Some (query_with a);
       url_kwargs := ∅ |} in
  build_engine (Some "access") h db q (Some path) s =
    (a ← call (Path_absolute_str (Some path));
     dict_setitem AccessEngine_query "DBQ" a;;
     delegate (args a)) s ∧
  (∀ a, query_with a !! "driver"
          = Some "Microsoft Access Driver (*.mdb, *.accdb)" ∧
        query_with a !! "ExtendedAnsiSql" = Some "1" ∧
        query_with a !! "DBQ" = Some a ∧
        ∀ k, k ≠ "driver" → k ≠ "ExtendedAnsiSql" → k ≠ "DBQ" →
             query_with a !! k = None) ∧
  ∀ e s', build_engine (Some "access") h db q (Some path) s = (Returns e, s') →
    ∃ i a w1,
      Path_absolute_str (Some path) (world s) = (Returns a, w1) ∧
      AccessEngine__init__ (Some path) s = (Returns i, s') ∧
      cls i = AccessEngine_cls ∧ engine i = e ∧
      url_assembled (args a) w1 i (world s') ∧
      heap s' = heap (with_DBQ a s w1).
Proof.
  intros Hok query_with args.
  change query_with with (λ a, <["DBQ" := a]> AccessEngine_presets) in *.
  subst args. simpl.
  rewrite build_engine_unfold. simpl.
  split; [by apply fmap_engine_Access |]. split.
  - intros a. unfold AccessEngine_presets. split; [| split; [| split]].
    + by rewrite lookup_insert_ne, lookup_insert_eq.
    + by rewrite !lookup_insert_ne, lookup_singleton_eq.
    + by rewrite lookup_insert_eq.
    + intros k Hk1 Hk2 Hk3.
      by rewrite !lookup_insert_ne, lookup_singleton_ne.
  - intros e s' (i & Hi & He)%fmap_engine_Returns.
    pose proof Hi as (a & w1 & Ha & Hi')%AccessEngine__init___Returns.
    apply SQLEngine__init___Returns in Hi' as (Hc & _ & _ & _ & _ & Hh & Hu).
    simpl in Hu. rewrite with_DBQ_content in Hu by done.
    by exists i, a, w1.
Qed.

(** C4. For a driver string that is neither ["mssql"] nor ["access"],
    [build_engine] is exactly [create_engine] applied to the URL that
    [URL.create] makes from the given driver, host, database and query
    (with no extra keyword argument); the [try]/[except] around it passes
    every exception on unchanged. *)
Theorem build_engine_generic (dr : string) h db q p s :
  dr ≠ "mssql" → dr ≠ "access" →
  build_engine (Some dr) h db q p s =
  delegate
    {| url_drivername := Some dr; url_host := h; url_database := db;
       url_query := dict_at s <$> q; url_kwargs := ∅ |} s.
Proof.
  intros Hm Ha. rewrite build_engine_unfold. simpl.
  rewrite !decide_False by congruence.
  apply fmap_engine_init.
Qed.

(** C5. [build_engine] chooses the class from the driver string alone,
    by exact comparison: ["mssql"] gives [MSSQLEngine], ["access"] gives
    [AccessEngine], and every other string (["MSSQL"] and ["Access"]
    among them) gives the generic [SQLEngine]; the call is the
    construction of an object of the chosen class, of which the engine is
    returned. *)
Theorem build_engine_dispatch (dr : string) h db q p s :
  build_engine (Some dr) h db q p s =
    (engine <$> instantiate (select_class dr) (Some dr) h db q p) s ∧
  (∀ i s', instantiate (select_class dr) (Some dr) h db q p s
             = (Returns i, s') → cls i = select_class dr) ∧
  (select_class dr = MSSQLEngine_cls ↔ dr = "mssql") ∧
  (select_class dr = AccessEngine_cls ↔ dr = "access") ∧
  (select_class dr = SQLEngine_cls ↔ dr ≠ "mssql" ∧ dr ≠ "access") ∧
  select_class "MSSQL" = SQLEngine_cls ∧
  select_class "Access" = SQLEngine_cls.
Proof.
  rewrite build_engine_unfold. simpl. unfold select_class.
  destruct (String.eqb_spec dr "mssql") as [-> | Hm]; simpl.
  { repeat split; try done; try (intros [? ?]; congruence).
    intros i s'. by intros (? & _)%SQLEngine__init___Returns. }
  rewrite decide_False by congruence.
  destruct (String.eqb_spec dr "access") as [-> | Ha]; simpl.
  { repeat split; try done; try (intros [? ?]; congruence).
    - unfold fmap, M_fmap, mbind, M_bind, py_assert.
      by destruct (is_not_None p).
    - intros i s'. unfold mbind, M_bind, py_assert.
      destruct (is_not_None p); [| done].
      intros (a & w & _ & Hi)%AccessEngine__init___Returns.
      by apply SQLEngine__init___Returns in Hi as (? & _). }
  rewrite decide_False by congruence.
  repeat split; try done; try congruence.
  intros i s'. by intros (? & _)%SQLEngine__init___Returns.
Qed.

(** ** Connecting *)

(** C6. [SQLEngine.connect] is the library's [connect] on the engine the
    instance stores: same result, same effect on the library, and nothing
    of the module's own state changes. *)
Theorem SQLEngine_connect_delegates (self : Instance) s :
  SQLEngine_connect self s = wrapped_connect (engine self) s ∧
  heap (SQLEngine_connect self s).2 = heap s.
Proof.
  split; [done |].
  unfold SQLEngine_connect. unfold_M. by step_call.
Qed.

(** ** Assertions *)

(** Closes a goal whose hypothesis [H] says that a constructor call ended
    in a failed assertion. *)
Ltac library_only H :=
  apply fmap_engine_Raises in H;
  first [ by apply SQLEngine__init___not_assert in H
        | by apply AccessEngine__init___not_assert in H ].

(** C7. [build_engine] fails an assertion exactly when driver and file
    path are both [None], or the driver is ["access"] and the file path is
    [None]; the call then ends where it started, no library call having
    been made. *)
Theorem build_engine_assertions d h db q p s :
  ((∃ msg s', build_engine d h db q p s = (Raises (AssertionError msg), s'))
   ↔ (d = None ∧ p = None) ∨ (d = Some "access" ∧ p = None)) ∧
  (∀ msg s', build_engine d h db q p s = (Raises (AssertionError msg), s')
             → s' = s).
Proof.
  rewrite build_engine_unfold.
  destruct d as [dr |], p as [path |]; simpl;
    repeat case_decide; simplify_eq; simpl;
    (split; [split |]);
    try (intros (msg & s' & Hr); library_only Hr);
    try (intros msg s' Hr; first [ library_only Hr | by simplify_eq ]);
    try (intros [[? ?] | [? ?]]; congruence);
    eauto.
Qed.

(** ** The caller's query in the preset branches *)

(** C8. With driver ["mssql"] or ["access"], [build_engine] makes no use
    of its [query] argument: the call is the same for every [query]
    passed, none included, in every state; and in a state where the class
    dictionaries hold their presets it is [create_engine] on a URL whose
    query holds the presets of the class body, written out below (with
    ["DBQ"] added for access), and no other entry.  So nothing of the
    dictionary passed gets into the URL: what the URL holds comes from the
    class dictionary. *)
Theorem build_engine_query_unused h db p s :
  (∀ q q', build_engine (Some "mssql") h db q p s
           = build_engine (Some "mssql") h db q' p s) ∧
  (∀ q q', build_engine (Some "access") h db q p s
           = build_engine (Some "access") h db q' p s) ∧
  (class_dicts_ok s →
   let mssql_query : dict :=
     {[ "driver" := "SQL Server Native Client 11.0" ]} in
   let access_query a : dict :=
     <["DBQ" := a]>
       (<["driver" := "Microsoft Access Driver (*.mdb, *.accdb)"]>
          {[ "ExtendedAnsiSql" := "1" ]}) in
   (∀ q, build_engine (Some "mssql") h db q p s =
         delegate
           {| url_drivername := Some "mssql+pyodbc"; url_host := h;
              url_database := db; url_query := Some mssql_query;
              url_kwargs := ∅ |} s) ∧
   (∀ q, build_engine (Some "access") h db q p s =
         (py_assert (is_not_None p)
            "Using Access you must specify a local database file path.";;
          a ← call (Path_absolute_str p);
          dict_setitem AccessEngine_query "DBQ" a;;
          delegate
            {| url_drivername := Some "access+pyodbc"; url_host := None;
               url_database := None;
               url_query := Some (access_query a);
               url_kwargs := ∅ |}) s) ∧
   (∀ k v, mssql_query !! k = Some v →
           k = "driver" ∧ v = "SQL Server Native Client 11.0") ∧
   (∀ a k v, access_query a !! k = Some v →
             (k = "driver" ∧ v = "Microsoft Access Driver (*.mdb, *.accdb)") ∨
             (k = "ExtendedAnsiSql" ∧ v = "1") ∨
             (k = "DBQ" ∧ v = a))).
Proof.
  split; [| split].
  - intros q q'. by rewrite !build_engine_unfold.
  - intros q q'. by rewrite !build_engine_unfold.
  - intros Hok mssql_query access_query.
    split; [| split; [| split]].
    + intros q. rewrite build_engine_unfold. simpl.
      by apply fmap_engine_MSSQL.
    + intros q. rewrite build_engine_unfold. simpl.
      unfold mbind at 1, M_bind at 1, py_assert.
      destruct p as [path |]; simpl; [| done].
      by apply fmap_engine_Access.
    + apply MSSQLEngine_presets_entries.
    + apply AccessEngine_query_entries.
Qed.

(** ** The shared class dictionary *)

(** C9. Constructing an [AccessEngine] with path [p] stores the
    absolutised [p] under ["DBQ"] in the class-level dictionary itself:
    the new instance's [query] is that dictionary (no copy), so the entry
    is read through the class and through every [AccessEngine] instance,
    whenever it was constructed; and it stays until another
    [AccessEngine] is constructed, whatever else is called. *)
Theorem AccessEngine_query_shared (path : string) s i s' :
  AccessEngine__init__ (Some path) s = (Returns i, s') →
  ∃ a w1,
    Path_absolute_str (Some path) (world s) = (Returns a, w1) ∧
    query i = Some AccessEngine_query ∧
    dict_at s' AccessEngine_query !! "DBQ" = Some a ∧
    (∀ p0 s0 j s1, AccessEngine__init__ p0 s0 = (Returns j, s1) →
       ∃ l, query j = Some l ∧ dict_at s' l !! "DBQ" = Some a) ∧
    (∀ cs, forallb (λ x, negb (constructs_Access x)) cs = true →
       dict_at (run cs s') AccessEngine_query !! "DBQ" = Some a).
Proof.
  intros (a & w1 & Ha & Hi)%AccessEngine__init___Returns.
  apply SQLEngine__init___Returns in Hi as (_ & _ & _ & _ & Hq & Hh & _).
  assert (dict_at s' AccessEngine_query !! "DBQ" = Some a) as HDBQ.
  { rewrite (dict_at_heap s' (with_DBQ a s w1)) by done.
    by rewrite dict_at_with_DBQ, lookup_insert_eq. }
  exists a, w1. repeat split; try done.
  - intros p0 s0 j s1 (a0 & w0 & _ & Hj)%AccessEngine__init___Returns.
    apply SQLEngine__init___Returns in Hj as (_ & _ & _ & _ & Hqj & _).
    by exists AccessEngine_query.
  - intros cs Hcs.
    by rewrite (dict_at_heap (run cs s') s') by by apply run_heap_other.
Qed.

End Properties.

(** * Further properties of the module *)

Section Effects.
Context {L : Library}.

Implicit Types (s : State) (h db d p : option string) (q : option loc).

(** ** What a history of calls changes *)

Lemma with_DBQ_frame a s w (l : loc) (k : string) :
  l ≠ AccessEngine_query ∨ k ≠ "DBQ" →
  dict_at (with_DBQ a s w) l !! k = dict_at s l !! k.
Proof.
  intros Hlk. destruct (decide (l = AccessEngine_query)) as [-> | Hl].
  - destruct Hlk as [? | Hk]; [done |].
    by rewrite dict_at_with_DBQ, lookup_insert_ne.
  - by rewrite dict_at_with_DBQ_ne.
Qed.

Lemma exec_frame (c : Call) s (l : loc) (k : string) :
  l ≠ AccessEngine_query ∨ k ≠ "DBQ" →
  dict_at (exec c s) l !! k = dict_at s l !! k.
Proof.
  intros Hlk. destruct (exec_heap c s) as [Hh | (a & w & Hh)].
  - by rewrite (dict_at_heap _ _ l Hh).
  - rewrite (dict_at_heap _ _ l Hh). by apply with_DBQ_frame.
Qed.

(** X1. Whatever the module is called with, and however often, the only
    dictionary entry it ever writes is ["DBQ"] of [AccessEngine.query]:
    every other entry of that dictionary, [MSSQLEngine.query] and the
    dictionaries of the caller read after the calls as they did before. *)
Theorem run_changes_only_DBQ (cs : list Call) s (l : loc) (k : string) :
  l ≠ AccessEngine_query ∨ k ≠ "DBQ" →
  dict_at (run cs s) l !! k = dict_at s l !! k.
Proof.
  intros Hlk. revert s.
  induction cs as [| c cs IH]; intros s; simpl; [done |].
  rewrite IH. by apply exec_frame.
Qed.

(** ** A constructor that raises *)



(** ** Two constructions in a row *)

(** X3. After a second [AccessEngine] is constructed, the first
    instance's [query] no longer tells what its engine was built from:
    its URL was made with the first path under ["DBQ"], while its [query]
    attribute, being the class dictionary, now reads the second path. *)
Theorem AccessEngine_query_outlives_url (p1 p2 : string) s i1 s1 i2 s2 :
  class_dicts_ok s →
  AccessEngine__init__ (Some p1) s = (Returns i1, s1) →
  AccessEngine__init__ (Some p2) s1 = (Returns i2, s2) →
  ∃ a1 a2 w1 w2,
    Path_absolute_str (Some p1) (world s) = (Returns a1, w1) ∧
    Path_absolute_str (Some p2) (world s1) = (Returns a2, w2) ∧
    url_assembled
      {| url_drivername := Some "access+pyodbc"; url_host := None;
         url_database := None;
         url_query := Some (<["DBQ" := a1]> AccessEngine_presets);
         url_kwargs := ∅ |} w1 i1 (world s1) ∧
    query i1 = Some AccessEngine_query ∧
    query i2 = Some AccessEngine_query ∧
    dict_at s2 AccessEngine_query = <["DBQ" := a2]> AccessEngine_presets.
Proof.
  intros Hok (a1 & w1 & Ha1 & Hi1)%AccessEngine__init___Returns
             (a2 & w2 & Ha2 & Hi2)%AccessEngine__init___Returns.
  apply SQLEngine__init___Returns in Hi1 as (_ & _ & _ & _ & Hq1 & Hh1 & Hu1).
  apply SQLEngine__init___Returns in Hi2 as (_ & _ & _ & _ & Hq2 & Hh2 & _).
  simpl in Hu1. rewrite with_DBQ_content in Hu1 by done.
  assert (class_dicts_ok s1) as Hok1.
  { apply (class_dicts_ok_heap (with_DBQ a1 s w1)); [done |].
    by apply with_DBQ_ok. }
  exists a1, a2, w1, w2. repeat split; try done.
  rewrite (dict_at_heap s2 (with_DBQ a2 s1 w2)) by done.
  by apply with_DBQ_content.
Qed.

(** ** Arguments a branch does not look at *)

Lemma build_engine_path_unused d h db q p p' s :
  d ≠ Some "access" →
  is_not_None d || is_not_None p = is_not_None d || is_not_None p' →
  build_engine d h db q p s = build_engine d h db q p' s.
Proof.
  intros Hd Hp. rewrite !build_engine_unfold, Hp.
  by destruct (decide (d = Some "access")).
Qed.

(** X4. Each branch of [build_engine] looks at part of the arguments
    only.  Outside the access branch the file path matters for the first
    assertion alone, so any two paths that are both given, or both
    missing, give the same call; the access branch does not look at host,
    database or query; the mssql branch does not look at query. *)
Theorem build_engine_unused_arguments d h db q p s :
  (∀ p', d ≠ Some "access" →
         is_not_None d || is_not_None p = is_not_None d || is_not_None p' →
         build_engine d h db q p s = build_engine d h db q p' s) ∧
  (∀ h' db' q', build_engine (Some "access") h db q p s
                = build_engine (Some "access") h' db' q' p s) ∧
  (∀ q' p', build_engine (Some "mssql") h db q p s
            = build_engine (Some "mssql") h db q' p' s).
Proof.
  split; [| split].
  - intros p' Hd Hp. by apply build_engine_path_unused.
  - intros h' db' q'. by rewrite !build_engine_unfold.
  - intros q' p'. by rewrite !build_engine_unfold.
Qed.

(** X5. A file path without a driver passes the first assertion, and is
    then not used: the call takes the generic branch, absolutises and
    stores nothing, and asks [URL.create] for a URL with no driver name. *)
Theorem build_engine_path_without_driver (path : string) h db q s :
  build_engine None h db q (Some path) s =
  delegate
    {| url_drivername := None; url_host := h; url_database := db;
       url_query := dict_at s <$> q; url_kwargs := ∅ |} s ∧
  heap (build_engine None h db q (Some path) s).2 = heap s.
Proof.
  rewrite build_engine_unfold. simpl.
  split; [apply fmap_engine_init |].
  rewrite fmap_engine_heap. apply SQLEngine__init___heap.
Qed.

(** X6. The preset branches send what the class dictionary holds when
    the call is made, presets or not: with driver ["mssql"] the URL's
    query is the present content of [MSSQLEngine.query], with driver
    ["access"] the present content of [AccessEngine.query] with ["DBQ"]
    set; no user name, password or port is ever passed; and when the path
    cannot be absolutised the access branch raises just that, having
    stored nothing. *)
Theorem build_engine_sends_class_query (path : string) h db q p s :
  build_engine (Some "mssql") h db q p s =
    delegate
      {| url_drivername := Some "mssql+pyodbc"; url_host := h;
         url_database := db;
         url_query := Some (dict_at s MSSQLEngine_query);
         url_kwargs := ∅ |} s ∧
  (∀ a w, Path_absolute_str (Some path) (world s) = (Returns a, w) →
     build_engine (Some "access") h db q (Some path) s =
       delegate
         {| url_drivername := Some "access+pyodbc"; url_host := None;
            url_database := None;
            url_query := Some (<["DBQ" := a]> (dict_at s AccessEngine_query));
            url_kwargs := ∅ |} (with_DBQ a s w)) ∧
  (∀ x w, Path_absolute_str (Some path) (world s) = (Raises x, w) →
     build_engine (Some "access") h db q (Some path) s =
       (Raises (Raised x), mkState (heap s) w)).
Proof.
  rewrite !build_engine_unfold. simpl. split; [| split].
  - unfold MSSQLEngine__init__. by rewrite fmap_engine_init.
  - intros a w Ha. unfold fmap, M_fmap.
    rewrite AccessEngine__init___unfold, Ha.
    pose proof (fmap_engine_init AccessEngine_cls (Some AccessEngine_driver)
                  None None (Some AccessEngine_query) ∅ (with_DBQ a s w)) as E.
    unfold fmap at 1, M_fmap in E. rewrite E. simpl.
    by rewrite dict_at_with_DBQ.
  - intros x w Hx. unfold fmap, M_fmap.
    by rewrite AccessEngine__init___unfold, Hx.
Qed.

End Effects.

(** * Properties of the script *)

Section ScriptProperties.
Context {L : Library} {P : Printing}.

Implicit Types (s : State) (c : Console).

(** With a driver given, and a path given whenever the driver is
    ["access"], no assertion of [build_engine] fails. *)
Lemma build_engine_not_assert (driver : string) h db q p s msg s' :
  (driver = "access" → is_not_None p = true) →
  build_engine (Some driver) h db q p s ≠ (Raises (AssertionError msg), s').
Proof.
  intros Hp. rewrite build_engine_unfold. simpl.
  destruct (decide (Some driver = Some "mssql")).
  { intros H%fmap_engine_Raises. by apply SQLEngine__init___not_assert in H. }
  destruct (decide (Some driver = Some "access")) as [[= ->] |].
  { rewrite Hp by done. intros H%fmap_engine_Raises.
    by apply AccessEngine__init___not_assert in H. }
  intros H%fmap_engine_Raises. by apply SQLEngine__init___not_assert in H.
Qed.

(** Lines 21-22 end well or with what the library's [connect] raised. *)
Lemma report_outcome (e : Engine) c s :
  ∃ c' s',
    report e c s = (Returns tt, c', s') ∨
    ∃ x, report e c s = (Raises (Uncaught (Raised x)), c', s').
Proof.
  unfold report, mbind, Script_bind, py_print, module_call, call.
  destruct (Engine_connect e (world s)) as [[conn | x] w]; eauto 10.
Qed.

(** The script, once three lines were typed and the host is there. *)
Lemma script_host_branch (driver host database : string) rest out s :
  host ≠ "" → driver ≠ "access" →
  basic_connection_test (mkConsole (driver :: host :: database :: rest) out) s
  = (e ← module_call
           (build_engine (Some driver) (Some host) (Some database) None None);
     report e)
      (mkConsole rest
         (((out ++ [Prompt "Enter the driver: "])
             ++ [Prompt "Enter the host: "])
            ++ [Prompt "Enter the database: "])) s.
Proof.
  intros Hh Hd.
  unfold basic_connection_test, report, mbind, Script_bind, py_input. simpl.
  rewrite (bool_decide_eq_false_2 _ Hd).
  by destruct host.
Qed.

(** The script, once four lines were typed and a path is asked for. *)
Lemma script_path_branch (driver host database path : string) rest out s :
  host = "" ∨ driver = "access" →
  basic_connection_test
    (mkConsole (driver :: host :: database :: path :: rest) out) s
  = (e ← module_call
           (build_engine (Some driver) None None None (Some path));
     report e)
      (mkConsole rest
         ((((out ++ [Prompt "Enter the driver: "])
              ++ [Prompt "Enter the host: "])
             ++ [Prompt "Enter the database: "])
            ++ [Prompt "Enter the path to the database: "])) s.
Proof.
  intros Hc.
  unfold basic_connection_test, report, mbind, Script_bind, py_input. simpl.
  assert ((String.length host =? 0)%nat || bool_decide (driver = "access")
          = true) as ->; [| done].
  destruct Hc as [-> | ->]; [done |]. apply orb_true_r.
Qed.

Lemma script_needs_path (driver host : string) :
  (String.length host =? 0)%nat || bool_decide (driver = "access") = true ↔
  host = "" ∨ driver = "access".
Proof.
  rewrite orb_true_iff, bool_decide_eq_true. destruct host; simpl; split.
  - intros [_ | ?]; auto.
  - auto.
  - intros [[=] | ?]; auto.
  - intros [[=] | ?]; auto.
Qed.

Lemma module_call_bind {A B : Type} (m : M A) (f : A → Script B) c s :
  (a ← module_call m; f a) c s =
  match m s with
  | (Returns a, s1) => f a c s1
  | (Raises x, s1) => (Raises (Uncaught x), c, s1)
  end.
Proof.
  unfold mbind, Script_bind, module_call. by destruct (m s) as [[a | x] s1].
Qed.

(** X7. The script never runs into an assertion of [build_engine]: it
    always passes a driver, and with driver ["access"] always a path.
    Whatever is typed, it ends well, or at the end of the input, or with
    an exception that came out of the library. *)
Theorem script_never_fails_assertion c s :
  ∃ c' s',
    basic_connection_test c s = (Returns tt, c', s') ∨
    basic_connection_test c s = (Raises EOFError, c', s') ∨
    ∃ x, basic_connection_test c s = (Raises (Uncaught (Raised x)), c', s').
Proof.
  assert (∀ (m : M Engine) c0 s0,
            (∀ msg s1, m s0 ≠ (Raises (AssertionError msg), s1)) →
            ∃ c' s',
              (e ← module_call m; report e) c0 s0 = (Returns tt, c', s') ∨
              (e ← module_call m; report e) c0 s0 = (Raises EOFError, c', s') ∨
              ∃ x, (e ← module_call m; report e) c0 s0
                   = (Raises (Uncaught (Raised x)), c', s')) as Hrun.
  { intros m c0 s0 Hm. rewrite module_call_bind.
    destruct (m s0) as [[e | [msg | x]] s1] eqn:Em.
    - destruct (report_outcome e c0 s1) as (c' & s' & [-> | [x ->]]); eauto 10.
    - by destruct (Hm msg s1).
    - eauto 10. }
  destruct c as [[| driver [| host [| database rest]]] out];
    try (eexists _, _; right; left; reflexivity).
  destruct (decide (host = "" ∨ driver = "access")) as [Hc | Hc].
  - destruct rest as [| path rest].
    + apply script_needs_path in Hc.
      unfold basic_connection_test, mbind, Script_bind, py_input. simpl.
      rewrite Hc. simpl. eauto 10.
    + rewrite script_path_branch by done.
      apply Hrun. intros msg s1. by apply build_engine_not_assert.
  - rewrite script_host_branch by tauto.
    apply Hrun. intros msg s1. apply build_engine_not_assert. tauto.
Qed.

(** X8. What the script does not use of what was typed: with an empty
    host and a driver other than ["access"], neither the database name
    nor the path asked for makes any difference to the run; with driver
    ["access"], neither the host nor the database name does. *)
Theorem script_ignored_inputs
    (driver host host' database database' path path' : string) rest out s :
  (driver ≠ "access" →
   basic_connection_test
     (mkConsole (driver :: "" :: database :: path :: rest) out) s
   = basic_connection_test
       (mkConsole (driver :: "" :: database' :: path' :: rest) out) s) ∧
  basic_connection_test
    (mkConsole ("access" :: host :: database :: path :: rest) out) s
  = basic_connection_test
      (mkConsole ("access" :: host' :: database' :: path :: rest) out) s.
Proof.
  split.
  - intros Hd. rewrite !script_path_branch by auto.
    rewrite !module_call_bind.
    by rewrite (build_engine_path_unused (Some driver) None None None
                  (Some path) (Some path') s) by (done || congruence).
  - by rewrite !script_path_branch by auto.
Qed.

(** X9. When the input ends before the script has what it asks for
    (fewer than three lines, or three lines and a path is needed), the
    script ends with [EOFError] and has not called the module: no
    dictionary and nothing of the library has changed. *)
Theorem script_short_input c s :
  (length (stdin c) < 3 ∨
   ∃ driver host database,
     stdin c = [driver; host; database] ∧ (host = "" ∨ driver = "access")) →
  ∃ c', basic_connection_test c s = (Raises EOFError, c', s) ∧ stdin c' = [].
Proof.
  intros [Hlen | (driver & host & database & Hin & Hc)].
  - destruct c as [[| driver [| host [| database rest]]] out]; simpl in Hlen;
      try lia; eexists; split; reflexivity.
  - destruct c as [inp out]. simpl in Hin. subst inp.
    apply script_needs_path in Hc.
    unfold basic_connection_test, mbind, Script_bind, py_input. simpl.
    rewrite Hc. simpl. eauto.
Qed.

End ScriptProperties.

(** * The ["DBQ"] entry over time, and the prompts of the script *)

Section Lifecycle.
Context {L : Library}.

Implicit Types (s : State).

Lemma exec_keeps_DBQ (c : Call) s :
  is_Some (dict_at s AccessEngine_query !! "DBQ") →
  is_Some (dict_at (exec c s) AccessEngine_query !! "DBQ").
Proof.
  intros Hs. destruct (exec_heap c s) as [Hh | (a & w & Hh)].
  - by rewrite (dict_at_heap _ _ _ Hh).
  - rewrite (dict_at_heap _ _ _ Hh), dict_at_with_DBQ, lookup_insert_eq. eauto.
Qed.

Lemma run_keeps_DBQ (cs : list Call) s :
  is_Some (dict_at s AccessEngine_query !! "DBQ") →
  is_Some (dict_at (run cs s) AccessEngine_query !! "DBQ").
Proof.
  revert s. induction cs as [| c cs IH]; intros s Hs; simpl; [done |].
  by apply IH, exec_keeps_DBQ.
Qed.

Lemma initial_state_no_DBQ (w : LibState) :
  dict_at (initial_state w) AccessEngine_query !! "DBQ" = None.
Proof.
  unfold dict_at, initial_state, initial_heap. simpl.
  rewrite lookup_total_insert_ne by done.
  rewrite lookup_total_singleton_eq. apply AccessEngine_presets_no_DBQ.
Qed.

(** The constructor, by whether the path is absolutised. *)
Lemma AccessEngine__init___stores p s :
  if absolutises p s
  then is_Some (dict_at (AccessEngine__init__ p s).2 AccessEngine_query
                  !! "DBQ")
  else heap (AccessEngine__init__ p s).2 = heap s.
Proof.
  unfold absolutises. rewrite AccessEngine__init___unfold.
  destruct (Path_absolute_str p (world s)) as [[a | x] w]; [| done].
  rewrite (dict_at_heap _ (with_DBQ a s w))
    by apply SQLEngine__init___heap.
  rewrite dict_at_with_DBQ, lookup_insert_eq. eauto.
Qed.

(** A call that runs line 105 to its end leaves a ["DBQ"]. *)
Lemma exec_stores (c : Call) s :
  stores_DBQ c s = true →
  is_Some (dict_at (exec c s) AccessEngine_query !! "DBQ").
Proof.
  destruct c as [d h db q kw | h db | p | d h db q p | i]; simpl; try done.
  - intros Hp. pose proof (AccessEngine__init___stores p s) as H.
    by rewrite Hp in H.
  - intros [[Hd Hn]%andb_prop Hp]%andb_prop.
    apply bool_decide_eq_true_1 in Hd as ->.
    rewrite build_engine_unfold, Hn. simpl.
    rewrite (dict_at_heap _ (AccessEngine__init__ p s).2)
      by apply fmap_engine_heap.
    pose proof (AccessEngine__init___stores p s) as H.
    by rewrite Hp in H.
Qed.

(** Any other call leaves every dictionary as it was. *)
Lemma exec_no_store (c : Call) s :
  stores_DBQ c s = false → heap (exec c s) = heap s.
Proof.
  destruct (constructs_Access c) eqn:Hc; [| intros _; by apply exec_heap_other].
  destruct c as [d h db q kw | h db | p | d h db q p | i]; try done; simpl.
  - intros Hp. pose proof (AccessEngine__init___stores p s) as H.
    by rewrite Hp in H.
  - simpl in Hc. rewrite Hc. simpl. intros Hp.
    apply andb_prop in Hc as [Hd Hn].
    apply bool_decide_eq_true_1 in Hd as ->.
    rewrite build_engine_unfold, Hn. simpl. rewrite fmap_engine_heap.
    pose proof (AccessEngine__init___stores p s) as H.
    by rewrite Hp in H.
Qed.

Lemma run_stores (cs : list Call) s :
  dict_at s AccessEngine_query !! "DBQ" = None →
  (is_Some (dict_at (run cs s) AccessEngine_query !! "DBQ")
   ↔ some_store cs s = true).
Proof.
  revert s. induction cs as [| c cs IH]; intros s Hs; simpl.
  - rewrite Hs. split; [by intros [? [=]] | done].
  - destruct (stores_DBQ c s) eqn:Hc; simpl.
    + split; [done | intros _].
      by apply run_keeps_DBQ, exec_stores.
    + apply IH. by rewrite (dict_at_heap _ s) by by apply exec_no_store.
Qed.

(** X10. [AccessEngine.query] has no ["DBQ"] when the module is
    imported.  After a history of calls it has one exactly when some call
    of the history got to the end of line 105, that is, an
    [AccessEngine] constructor, called directly or by [build_engine],
    whose path was absolutised; whether that call then returned an object
    or raised does not matter.  And once there is a ["DBQ"], no call
    removes it. *)
Theorem DBQ_never_removed (cs : list Call) (w : LibState) :
  dict_at (initial_state w) AccessEngine_query !! "DBQ" = None ∧
  (is_Some (dict_at (run cs (initial_state w)) AccessEngine_query !! "DBQ")
   ↔ some_store cs (initial_state w) = true) ∧
  (∀ s, is_Some (dict_at s AccessEngine_query !! "DBQ") →
        is_Some (dict_at (run cs s) AccessEngine_query !! "DBQ")).
Proof.
  split; [apply initial_state_no_DBQ |]. split.
  - apply run_stores, initial_state_no_DBQ.
  - intros s. apply run_keeps_DBQ.
Qed.

End Lifecycle.

Section Prompts.
Context {L : Library} {P : Printing}.

Implicit Types (s : State) (c : Console).

(** Lines 21-22 write printed lines only, after what was written before. *)
Lemma report_stdout (e : Engine) c s :
  ∃ printed : list Output,
    stdout (report e c s).1.2 = (stdout c ++ printed)%list ∧
    ∀ o, o ∈ printed → ∃ text, o = Printed text.
Proof.
  unfold report, mbind, Script_bind, py_print, module_call, call. simpl.
  destruct (Engine_connect e (world s)) as [[conn | x] w]; simpl.
  - eexists [_; _]. rewrite <- app_assoc. split; [done |].
    intros o [-> | [-> | []%elem_of_nil]%elem_of_cons]%elem_of_cons; eauto.
  - eexists [_]. split; [done |].
    intros o [-> | []%elem_of_nil]%elem_of_cons; eauto.
Qed.

(** What the script has written once the engine is there or failed. *)
Lemma module_call_report_stdout (m : M Engine) c s :
  ∃ printed : list Output,
    stdout ((e ← module_call m; report e) c s).1.2
    = (stdout c ++ printed)%list ∧
    ∀ o, o ∈ printed → ∃ text, o = Printed text.
Proof.
  rewrite module_call_bind. destruct (m s) as [[e | x] s1].
  - apply report_stdout.
  - exists []. simpl. rewrite app_nil_r. split; [done |].
    by intros o ?%elem_of_nil.
Qed.

(** X11. Once driver, host and database are typed, the script asks for
    the path to the database exactly when the host is empty or the driver
    is ["access"], whatever happens afterwards. *)
Theorem script_asks_for_path (driver host database : string) rest out s :
  Prompt "Enter the path to the database: " ∉ out →
  (Prompt "Enter the path to the database: "
     ∈ stdout (basic_connection_test
                 (mkConsole (driver :: host :: database :: rest) out) s).1.2
   ↔ host = "" ∨ driver = "access").
Proof.
  intros Hout. destruct (decide (host = "" ∨ driver = "access")) as [Hc | Hc].
  - split; [done | intros _].
    destruct rest as [| path rest].
    + apply script_needs_path in Hc.
      unfold basic_connection_test, mbind, Script_bind, py_input. simpl.
      rewrite Hc. simpl. rewrite !elem_of_app, !list_elem_of_singleton. auto.
    + rewrite script_path_branch by done.
      destruct (module_call_report_stdout
                  (build_engine (Some driver) None None None (Some path))
                  (mkConsole rest
                     ((((out ++ [Prompt "Enter the driver: "])
                          ++ [Prompt "Enter the host: "])
                         ++ [Prompt "Enter the database: "])
                        ++ [Prompt "Enter the path to the database: "])) s)
        as (printed & -> & _).
      simpl. rewrite !elem_of_app, !list_elem_of_singleton. auto.
  - split; [| done]. intros Hin. exfalso.
    rewrite script_host_branch in Hin by tauto.
    destruct (module_call_report_stdout
                (build_engine (Some driver) (Some host) (Some database)
                   None None)
                (mkConsole rest
                   (((out ++ [Prompt "Enter the driver: "])
                       ++ [Prompt "Enter the host: "])
                      ++ [Prompt "Enter the database: "])) s)
      as (printed & Hp & Hprinted).
    rewrite Hp in Hin. simpl in Hin.
    rewrite !elem_of_app, !list_elem_of_singleton in Hin.
    destruct Hin as [[[[? | [=]] | [=]] | [=]] | Hin]; [done |].
    by destruct (Hprinted _ Hin).
Qed.

End Prompts.

(** * The properties on the plain library

    Each statement above that has a premise is applied here to a run of
    the model on [Plain.lib], started from the freshly imported module. *)

Lemma SQLEngine_components_witness :
  SQLEngine__init__ (L := Plain.lib) SQLEngine_cls (Some "sqlite") None
    (Some "app.db") (Some Plain.caller_query) ∅
    (Plain.start_with {[ "timeout" := "5" ]})
  = (Returns Plain.sqlite_instance, Plain.start_with {[ "timeout" := "5" ]}) ∧
  driver Plain.sqlite_instance = Some "sqlite" ∧
  host Plain.sqlite_instance = None ∧
  database Plain.sqlite_instance = Some "app.db" ∧
  query Plain.sqlite_instance = Some Plain.caller_query.
Proof.
  assert (SQLEngine__init__ (L := Plain.lib) SQLEngine_cls (Some "sqlite") None
            (Some "app.db") (Some Plain.caller_query) ∅
            (Plain.start_with {[ "timeout" := "5" ]})
          = (Returns Plain.sqlite_instance,
             Plain.start_with {[ "timeout" := "5" ]})) as E
    by reflexivity.
  split; [exact E |].
  exact (proj1 (proj1 (SQLEngine_components (L := Plain.lib) _ _ _ _ _ _ _ _ _) E)).
Defined.

Lemma build_engine_mssql_witness :
  class_dicts_ok Plain.start ∧
  build_engine (L := Plain.lib) (Some "mssql") (Some "dbhost") (Some "sales")
    None None Plain.start =
  (Returns
     {| url_drivername := Some "mssql+pyodbc"; url_host := Some "dbhost";
        url_database := Some "sales";
        url_query := Some {[ "driver" := "SQL Server Native Client 11.0" ]};
        url_kwargs := ∅ |},
   Plain.start).
Proof.
  assert (class_dicts_ok Plain.start) as Hok by (split; reflexivity).
  split; [exact Hok |].
  destruct (build_engine_mssql (L := Plain.lib) (Some "dbhost") (Some "sales")
              None None Plain.start Hok) as [E _].
  rewrite E. reflexivity.
Defined.

Lemma build_engine_access_witness :
  class_dicts_ok Plain.start ∧
  build_engine (L := Plain.lib) (Some "access") None None None
    (Some "db.accdb") Plain.start =
  (Returns
     {| url_drivername := Some "access+pyodbc"; url_host := None;
        url_database := None;
        url_query :=
          Some (<["DBQ" := "/srv/db.accdb"]>
                  (<["driver" := "Microsoft Access Driver (*.mdb, *.accdb)"]>
                     {[ "ExtendedAnsiSql" := "1" ]}));
        url_kwargs := ∅ |},
   Plain.after_access).
Proof.
  assert (class_dicts_ok Plain.start) as Hok by (split; reflexivity).
  split; [exact Hok |].
  destruct (build_engine_access (L := Plain.lib) None None None "db.accdb"
              Plain.start Hok) as [E _].
  rewrite E. reflexivity.
Defined.

Lemma build_engine_generic_witness :
  "sqlite" ≠ "mssql" ∧ "sqlite" ≠ "access" ∧
  build_engine (L := Plain.lib) (Some "sqlite") None (Some "app.db")
    (Some Plain.caller_query) None (Plain.start_with {[ "timeout" := "5" ]}) =
  (Returns Plain.sqlite_url, Plain.start_with {[ "timeout" := "5" ]}).
Proof.
  assert ("sqlite" ≠ "mssql") as Hm by discriminate.
  assert ("sqlite" ≠ "access") as Ha by discriminate.
  split; [exact Hm |]. split; [exact Ha |].
  rewrite (build_engine_generic (L := Plain.lib) "sqlite" None (Some "app.db")
             (Some Plain.caller_query) None
             (Plain.start_with {[ "timeout" := "5" ]}) Hm Ha).
  reflexivity.
Defined.

Lemma build_engine_query_unused_witness :
  class_dicts_ok
    (Plain.start_with {[ "driver" := "SQL Server Native Client 11.0";
                         "timeout" := "5" ]}) ∧
  ∀ q, build_engine (L := Plain.lib) (Some "mssql") (Some "dbhost")
         (Some "sales") q None
         (Plain.start_with {[ "driver" := "SQL Server Native Client 11.0";
                              "timeout" := "5" ]}) =
       (Returns
          {| url_drivername := Some "mssql+pyodbc"; url_host := Some "dbhost";
             url_database := Some "sales";
             url_query := Some {[ "driver" := "SQL Server Native Client 11.0" ]};
             url_kwargs := ∅ |},
        Plain.start_with {[ "driver" := "SQL Server Native Client 11.0";
                            "timeout" := "5" ]}).
Proof.
  assert (class_dicts_ok
            (Plain.start_with {[ "driver" := "SQL Server Native Client 11.0";
                                 "timeout" := "5" ]})) as Hok
    by (split; reflexivity).
  split; [exact Hok |]. intros q.
  destruct (build_engine_query_unused (L := Plain.lib) (Some "dbhost")
              (Some "sales") None
              (Plain.start_with {[ "driver" := "SQL Server Native Client 11.0";
                                   "timeout" := "5" ]}))
    as (_ & _ & HURL).
  destruct (HURL Hok) as [E _].
  rewrite E. reflexivity.
Defined.

Lemma AccessEngine_query_shared_witness :
  AccessEngine__init__ (L := Plain.lib) (Some "db.accdb") Plain.start
  = (Returns Plain.access_instance, Plain.after_access) ∧
  query Plain.access_instance = Some AccessEngine_query ∧
  dict_at Plain.after_access AccessEngine_query !! "DBQ"
  = Some "/srv/db.accdb" ∧
  dict_at
    (run [Call_MSSQLEngine (Some "dbhost") (Some "sales")] Plain.after_access)
    AccessEngine_query !! "DBQ" = Some "/srv/db.accdb".
Proof.
  assert (AccessEngine__init__ (L := Plain.lib) (Some "db.accdb") Plain.start
          = (Returns Plain.access_instance, Plain.after_access)) as E
    by reflexivity.
  split; [exact E |].
  destruct (AccessEngine_query_shared (L := Plain.lib) "db.accdb" Plain.start
              Plain.access_instance Plain.after_access E)
    as (a & w1 & Ha & Hq & HD & _ & Hrun).
  assert (a = "/srv/db.accdb") as -> by (vm_compute in Ha; congruence).
  split; [exact Hq |]. split; [exact HD |].
  by apply (Hrun [Call_MSSQLEngine (Some "dbhost") (Some "sales")]).
Defined.

(** ** Further properties on the plain and the dialect-less library *)

Lemma run_changes_only_DBQ_witness :
  (AccessEngine_query ≠ AccessEngine_query ∨ "driver" ≠ "DBQ") ∧
  dict_at (run PlainRuns.history Plain.start) AccessEngine_query !! "driver"
  = dict_at Plain.start AccessEngine_query !! "driver".
Proof.
  assert (AccessEngine_query ≠ AccessEngine_query ∨ "driver" ≠ "DBQ") as Hlk
    by (right; discriminate).
  split; [exact Hlk |].
  exact (run_changes_only_DBQ (L := Plain.lib) PlainRuns.history Plain.start
           AccessEngine_query "driver" Hlk).
Defined.


Lemma AccessEngine_query_outlives_url_witness :
  class_dicts_ok Plain.start ∧
  AccessEngine__init__ (L := Plain.lib) (Some "db.accdb") Plain.start
  = (Returns Plain.access_instance, Plain.after_access) ∧
  AccessEngine__init__ (L := Plain.lib) (Some "other.mdb") Plain.after_access
  = (Returns PlainRuns.second_instance, PlainRuns.after_second) ∧
  url_query (url Plain.access_instance)
  = Some (<["DBQ" := "/srv/db.accdb"]> AccessEngine_presets) ∧
  dict_at PlainRuns.after_second AccessEngine_query !! "DBQ"
  = Some "/srv/other.mdb".
Proof.
  assert (class_dicts_ok Plain.start) as Hok by (split; reflexivity).
  assert (AccessEngine__init__ (L := Plain.lib) (Some "db.accdb") Plain.start
          = (Returns Plain.access_instance, Plain.after_access)) as E1
    by reflexivity.
  assert (AccessEngine__init__ (L := Plain.lib) (Some "other.mdb")
            Plain.after_access
          = (Returns PlainRuns.second_instance, PlainRuns.after_second)) as E2
    by reflexivity.
  split; [exact Hok |]. split; [exact E1 |]. split; [exact E2 |].
  destruct (AccessEngine_query_outlives_url (L := Plain.lib) "db.accdb"
              "other.mdb" Plain.start Plain.access_instance Plain.after_access
              PlainRuns.second_instance PlainRuns.after_second Hok E1 E2)
    as (a1 & a2 & w1 & w2 & Ha1 & Ha2 & Hu & Hq1 & Hq2 & Hd).
  assert (a2 = "/srv/other.mdb") as -> by (vm_compute in Ha2; congruence).
  split; [reflexivity |].
  rewrite Hd. apply lookup_insert_eq.
Defined.

Lemma build_engine_path_without_driver_witness :
  build_engine (L := Plain.lib) None (Some "dbhost") (Some "sales") None
    (Some "db.accdb") Plain.start
  = (Raises (Raised (L := Plain.lib) "TypeError"), Plain.start).
Proof.
  rewrite (proj1 (build_engine_path_without_driver (L := Plain.lib) "db.accdb"
                    (Some "dbhost") (Some "sales") None Plain.start)).
  reflexivity.
Defined.

Lemma build_engine_sends_class_query_witness :
  build_engine (L := Plain.lib) (Some "mssql") (Some "dbhost") (Some "sales")
    None None PlainRuns.client_entry
  = (Returns
       {| url_drivername := Some "mssql+pyodbc"; url_host := Some "dbhost";
          url_database := Some "sales";
          url_query :=
            Some (<["Trusted_Connection" := "yes"]> MSSQLEngine_presets);
          url_kwargs := ∅ |},
     PlainRuns.client_entry).
Proof.
  rewrite (proj1 (build_engine_sends_class_query (L := Plain.lib) ""
                    (Some "dbhost") (Some "sales") None None
                    PlainRuns.client_entry)).
  reflexivity.
Defined.

Lemma script_short_input_witness :
  (length (stdin (PlainConsole.typed ["access"; "dbhost"; "sales"])) < 3 ∨
   ∃ driver host database,
     stdin (PlainConsole.typed ["access"; "dbhost"; "sales"])
     = [driver; host; database] ∧ (host = "" ∨ driver = "access")) ∧
  ∃ c',
    basic_connection_test (L := Plain.lib) (P := PlainConsole.printing)
      (PlainConsole.typed ["access"; "dbhost"; "sales"]) Plain.start
    = (Raises EOFError, c', Plain.start) ∧ stdin c' = [].
Proof.
  assert (length (stdin (PlainConsole.typed ["access"; "dbhost"; "sales"])) < 3 ∨
          ∃ driver host database,
            stdin (PlainConsole.typed ["access"; "dbhost"; "sales"])
            = [driver; host; database] ∧ (host = "" ∨ driver = "access")) as Hc.
  { right. exists "access", "dbhost", "sales". split; [reflexivity |].
    right. reflexivity. }
  split; [exact Hc |].
  exact (script_short_input (L := Plain.lib) (P := PlainConsole.printing)
           (PlainConsole.typed ["access"; "dbhost"; "sales"]) Plain.start Hc).
Defined.

Lemma script_asks_for_path_witness :
  (Prompt "Enter the path to the database: " ∉ ([] : list Output)) ∧
  (Prompt "Enter the path to the database: "
     ∈ stdout (basic_connection_test (L := Plain.lib)
                 (P := PlainConsole.printing)
                 (mkConsole ["mssql"; ""; "sales"; "db.mdf"] []) Plain.start).1.2
   ↔ "" = "" ∨ "mssql" = "access").
Proof.
  assert (Prompt "Enter the path to the database: " ∉ ([] : list Output))
    as Hout by apply not_elem_of_nil.
  split; [exact Hout |].
  exact (script_asks_for_path (L := Plain.lib) (P := PlainConsole.printing)
           "mssql" "" "sales" ["db.mdf"] [] Plain.start Hout).
Defined.

Lemma DBQ_never_removed_witness :
  (AccessEngine__init__ (L := Offline.lib) (Some "db.accdb") Offline.start).1
  = Raises (Raised (L := Offline.lib) "NoSuchModuleError") ∧
  some_store (L := Offline.lib)
    [Call_MSSQLEngine (L := Offline.lib) None None;
     Call_AccessEngine (L := Offline.lib) (Some "db.accdb")] Offline.start
  = true ∧
  is_Some
    (dict_at
       (run [Call_MSSQLEngine (L := Offline.lib) None None;
             Call_AccessEngine (L := Offline.lib) (Some "db.accdb")]
          Offline.start) AccessEngine_query !! "DBQ").
Proof.
  assert (some_store (L := Offline.lib)
            [Call_MSSQLEngine (L := Offline.lib) None None;
             Call_AccessEngine (L := Offline.lib) (Some "db.accdb")]
            Offline.start = true) as Hst by reflexivity.
  split; [reflexivity |]. split; [exact Hst |].
  exact (proj2 (proj1 (proj2 (DBQ_never_removed (L := Offline.lib)
                                [Call_MSSQLEngine (L := Offline.lib) None None;
                                 Call_AccessEngine (L := Offline.lib)
                                   (Some "db.accdb")] "/srv"))) Hst).
Defined.
